(** * express-ts: the server bootstrap of [src/app.ts]

    A shallow embedding of the application file: the logger's level
    selection, the request-logging adapter, the bearer strategy's verify
    callback, the [POST /] handler, the [HTTPError] class and the terminal
    error-formatting middleware, followed by the properties the
    specification states about them.

    Handlers are functions into a writer monad [Eff] whose log is the
    ordered trace of the calls the handler makes on its collaborators
    ([res.status], [res.json], [res.send], [next], [logger.debug], ...).
    A response is obtained by folding a trace over a fresh response
    object.

    express, cors, helmet, winston, morgan and passport are dependencies
    of the application and not part of the repository; what the
    properties need of them is modelled in the modules [Res], [Winston],
    [Morgan], [Express], [Passport], [Chain] and [Server]. *)

From Stdlib Require Import String Ascii ZArith List Bool DecimalString.
Import ListNotations.
Local Open Scope string_scope.
Local Open Scope list_scope.

(** ** JavaScript values *)

Module Js.

(** Truthiness of the value types the program tests with [||]. *)
Class Truthy (A : Type) := truthy : A -> bool.

#[export] Instance truthy_string : Truthy string :=
  fun s => negb (s =? "").

#[export] Instance truthy_number : Truthy Z :=
  fun n => negb (n =? 0)%Z.

(** [a || b] where [a] has type [A | undefined]: [undefined] and the
    falsy values of [A] select [b]. *)
Definition or_else {A : Type} `{Truthy A} (a : option A) (b : A) : A :=
  match a with
  | Some v => if truthy v then v else b
  | None => b
  end.

(** JSON-like data: object literals of the program and the bodies it
    sends. An object keeps its keys in the order of the literal. *)
#[local] Unset Elimination Schemes.
Inductive Json : Type :=
| JNull
| JBool (b : bool)
| JNum (n : Z)
| JStr (s : string)
| JArr (items : list Json)
| JObj (fields : list (string * Json)).
#[local] Set Elimination Schemes.

#[export] Instance truthy_json : Truthy Json :=
  fun v =>
    match v with
    | JNull => false
    | JBool b => b
    | JNum n => truthy n
    | JStr s => truthy s
    | JArr _ | JObj _ => true
    end.

(** Property access [o.key] on an object; [None] is [undefined]. *)
Fixpoint assoc {V : Type} (key : string) (fields : list (string * V)) : option V :=
  match fields with
  | [] => None
  | (k, v) :: rest => if k =? key then Some v else assoc key rest
  end.

Definition get (key : string) (o : Json) : option Json :=
  match o with
  | JObj fields => assoc key fields
  | _ => None
  end.

End Js.
Export Js.

Notation "a '||j' b" := (Js.or_else a b) (at level 50, left associativity).

(** ** Errors, requests *)

(** The attributes of a thrown value that the program reads or writes:
    [error.constructor.name], [name], [message], [status], [statusCode].
    A status attribute is either absent or a number. *)
Module Error.
Record t : Type := mk {
  constructor_name : string;
  name : string;
  message : string;
  status : option Z;
  statusCode : option Z
}.
End Error.

(** The parts of an Express request the program and its collaborators
    read: the method, [req.path], [req.originalUrl], the bearer
    credential the request presents ([None] when it presents none), and
    its body as the parsers find it. *)
Module Req.

(** What a body parser makes of a body of its content type: the value
    it stores in [req.body], or the error it forwards. *)
Inductive Parse : Type :=
| Parsed (body : Json)
| Malformed (e : Error.t).

(** The body of a request, by content type. *)
Inductive Payload : Type :=
| NoPayload
| JsonPayload (p : Parse)       (* Content-Type: application/json *)
| FormPayload (p : Parse)       (* application/x-www-form-urlencoded *)
| OtherPayload.

Record t : Type := mk {
  method : string;
  path : string;
  originalUrl : string;
  bearer : option string;
  payload : Payload
}.


End Req.

(** ** Effects *)

(** One call of a handler on a collaborator. *)
Inductive Event : Type :=
| ConsoleLog (args : list string)          (* console.log(...args) *)
| LoggerLog (lvl : string) (msg : string)  (* logger.<lvl>(msg) *)
| ResStatus (code : Z)                     (* res.status(code) *)
| ResJson (body : Json)                    (* res.json(body) *)
| ResSend (body : string)                  (* res.send(body) *)
| ResEnd                                   (* res.end() *)
| ResSetHeader (name value : string)       (* res.setHeader(name, value) *)
| ReqSet (prop : string) (v : Json)        (* req[prop] = v *)
| DoneCall (err : option Error.t) (user info : Json)  (* done(err, user, info) *)
| Next (err : option Error.t).             (* next() / next(err) *)

Definition Eff (A : Type) : Type := (list Event * A)%type.

Definition ret {A : Type} (a : A) : Eff A := ([], a).

Definition bind {A B : Type} (m : Eff A) (k : A -> Eff B) : Eff B :=
  let (t1, a) := m in
  let (t2, b) := k a in
  (t1 ++ t2, b).

Definition emit (e : Event) : Eff unit := ([e], tt).

Definition trace {A : Type} (m : Eff A) : list Event := fst m.

Declare Scope eff_scope.
Delimit Scope eff_scope with eff.
Notation "x <- m ;; k" := (bind m (fun x => k))
  (at level 61, m at next level, right associativity) : eff_scope.
Notation "m ;; k" := (bind m (fun _ => k))
  (at level 61, right associativity) : eff_scope.
Local Open Scope eff_scope.

Definition console_log (args : list string) : Eff unit := emit (ConsoleLog args).
Definition res_status (code : Z) : Eff unit := emit (ResStatus code).
Definition res_json (body : Json) : Eff unit := emit (ResJson body).
Definition res_send (body : string) : Eff unit := emit (ResSend body).
Definition res_end : Eff unit := emit ResEnd.
Definition req_set (prop : string) (v : Json) : Eff unit := emit (ReqSet prop v).
Definition res_set_header (name value : string) : Eff unit :=
  emit (ResSetHeader name value).
Definition next (err : option Error.t) : Eff unit := emit (Next err).

(** How a synchronous call ends: it returns, or it raises and the
    statements after it are not executed. *)
Inductive Completion : Type :=
| Returned
| Raised.

(** ** The response object *)

Module Res.

Inductive Body : Type :=
| JsonBody (j : Json)
| TextBody (s : string)
| NoBody.

(** What goes out on the wire at a write: the status line and the body. *)
Record Reply : Type := mkReply {
  reply_status : Z;
  reply_body : Body
}.

(** [statusCode] is the response's current status code, [written] the
    replies written so far, oldest first. *)
Record t : Type := mk {
  statusCode : Z;
  written : list Reply
}.

(** Modelled from the spec: the response object of the framework, which
    is not part of the repository. A response starts at status 200 with
    nothing written. *)
Definition fresh : t := {| statusCode := 200; written := [] |}.

(** Modelled from the spec: a body is written with the status code the
    response has at that moment. *)
Definition write (b : Body) (r : t) : t :=
  {| statusCode := statusCode r;
     written := written r ++ [mkReply (statusCode r) b] |}.

(** Modelled from the spec: [res.status] sets the status code;
    [res.json], [res.send] and [res.end] write a body. *)
Definition step (r : t) (e : Event) : t :=
  match e with
  | ResStatus code => {| statusCode := code; written := written r |}
  | ResJson j => write (JsonBody j) r
  | ResSend s => write (TextBody s) r
  | ResEnd => write NoBody r
  | _ => r
  end.

Definition run (tr : list Event) (r : t) : t := fold_left step tr r.

(** The status codes a response can go out with. Node's HTTP server,
    which is not part of the repository, refuses a status code outside
    100..999: the call that writes the response raises instead of
    returning. *)
Definition writable (code : Z) : bool :=
  (100 <=? code)%Z && (code <=? 999)%Z.

End Res.

(** [res.status(code).json(body)]: both calls are made, and the chain
    returns only if the response can go out with that code. *)
Definition res_status_json (code : Z) (body : Json) : Eff Completion :=
  res_status code ;;
  res_json body ;;
  ret (if Res.writable code then Returned else Raised).

(** The replies a computation writes on a fresh response. *)
Definition replies {A : Type} (m : Eff A) : list Res.Reply :=
  Res.written (Res.run (trace m) Res.fresh).

(** The arguments of the calls of [next], in order. *)
Fixpoint next_calls (tr : list Event) : list (option Error.t) :=
  match tr with
  | [] => []
  | Next err :: rest => err :: next_calls rest
  | _ :: rest => next_calls rest
  end.

(** The calls on the logger, in order. *)
Fixpoint logger_calls (tr : list Event) : list (string * string) :=
  match tr with
  | [] => []
  | LoggerLog lvl msg :: rest => (lvl, msg) :: logger_calls rest
  | _ :: rest => logger_calls rest
  end.


(** ** The libraries the application composes *)

(** *** winston *)

Module Winston.

Record Transport : Type := mkTransport {
  sink : string;
  transport_level : option string
}.

Record Logger : Type := createLogger {
  level : string;
  levels : list (string * Z);
  transports : list Transport
}.

(** A record a sink has received. *)
Record Entry : Type := mkEntry {
  entry_sink : string;
  entry_level : string;
  entry_message : string
}.

(** Modelled from the spec: winston's level filter, which is not part of
    the repository. A sink emits every record at or above its effective
    level, where a lower numeric value is a higher severity; a sink
    without a level of its own takes the logger's. *)
Definition enabled (lg : Logger) (t : Transport) (lvl : string) : bool :=
  match Js.assoc (transport_level t ||j level lg) (levels lg), Js.assoc lvl (levels lg) with
  | Some threshold, Some l => (l <=? threshold)%Z
  | _, _ => false
  end.

(** Modelled from the spec: a call on the logger reaches every sink
    whose level admits it. *)
Definition deliver (lg : Logger) (call : string * string) : list Entry :=
  let (lvl, msg) := call in
  map (fun t => mkEntry (sink t) lvl msg)
      (filter (fun t => enabled lg t lvl) (transports lg)).

(** What the sinks receive from a sequence of calls on the logger. *)
Definition emitted (lg : Logger) (calls : list (string * string)) : list Entry :=
  flat_map (deliver lg) calls.

End Winston.

(** *** morgan *)

Module Morgan.

(** A format string, cut at its tokens: [:name] or [:name[arg]]. *)
Inductive Piece : Type :=
| Lit (text : string)
| Token (name : string) (arg : option string).

(** The values morgan reads off a request/response cycle once the
    response is finished; a value that is not available prints as ["-"]. *)
Record Cycle : Type := mkCycle {
  method : string;
  url : string;
  status : option string;
  res_content_length : option string;
  response_time : option string
}.

(** Modelled from the spec: the tokens of a line: method, request path,
    response status code, response content length and response time. *)
Definition token_value (c : Cycle) (name : string) (arg : option string) : option string :=
  if name =? "method" then Some (method c)
  else if name =? "url" then Some (url c)
  else if name =? "status" then status c
  else if name =? "res" then
    match arg with
    | Some h => if h =? "content-length" then res_content_length c else None
    | None => None
    end
  else if name =? "response-time" then response_time c
  else None.

Definition or_dash (v : option string) : string :=
  match v with
  | Some s => s
  | None => "-"
  end.

Fixpoint render (fmt : list Piece) (c : Cycle) : string :=
  match fmt with
  | [] => ""
  | Lit text :: rest => (text ++ render rest c)%string
  | Token name arg :: rest => (or_dash (token_value c name arg) ++ render rest c)%string
  end.

Definition newline : string := String (ascii_of_nat 10) "".

(** Modelled from the spec: morgan's middleware, which is not part of the
    repository. Each completed request/response cycle is converted into
    one line written to the stream, unless the skip predicate holds. *)
(** The two values of a cycle the adapter measures itself. *)
Record Measured : Type := mkMeasured {
  content_length : option string;
  response_time_ms : option string
}.

Definition morgan (fmt : list Piece) (stream_write : string -> Eff unit)
    (skip : unit -> bool) (c : Cycle) : Eff unit :=
  if skip tt then ret tt
  else stream_write (render fmt c ++ newline)%string.

End Morgan.

(** *** Express routing *)

Module Express.

Definition Handler : Type := Req.t -> Eff unit.

(** How a route's chain of handlers ends. *)
Inductive Outcome : Type :=
| Handled                 (* a handler ended the chain without calling next *)
| Fallthrough             (* the last handler called next() *)
| Failed (e : Error.t).   (* a handler called next(e) *)

(** The first call of [next] in a handler's trace. *)
Fixpoint next_call (tr : list Event) : option (option Error.t) :=
  match tr with
  | [] => None
  | Next err :: _ => Some err
  | _ :: rest => next_call rest
  end.

(** Modelled from the spec: Express's dispatch over an ordered chain,
    which is not part of the repository. Handlers run strictly in order;
    a handler that does not call next ends the chain, and one that
    forwards an error skips the remaining handlers. *)
Fixpoint route (handlers : list Handler) (req : Req.t) : Eff Outcome :=
  match handlers with
  | [] => ret Fallthrough
  | h :: rest =>
      let tr := trace (h req) in
      match next_call tr with
      | None => (tr, Handled)
      | Some None => bind (tr, tt) (fun _ => route rest req)
      | Some (Some e) => (tr, Failed e)
      end
  end.

End Express.

(** *** passport *)

Module Passport.

(** The [done] callback handed to a strategy's verify function:
    [done(err, user, info)]. *)
Definition Done : Type := option Error.t -> Json -> Json -> Eff unit.

Definition Verify : Type := string -> Done -> Eff unit.

(** How the framework reads the arguments of [done]: a principal or a
    rejection. *)
Inductive Verdict : Type :=
| Failure (e : Error.t)          (* an error was passed *)
| Refusal                        (* no error, a falsy user *)
| Success (user info : Json).

(** Modelled from the spec: the verification interface of the
    framework, [verify(token) -> Principal | Rejection]. *)
Definition verdict (err : option Error.t) (user info : Json) : Verdict :=
  match err with
  | Some e => Failure e
  | None => if truthy user then Success user info else Refusal
  end.

(** A [done] that only records its call. *)
Definition record_done : Done :=
  fun err user info => emit (DoneCall err user info).

(** The calls of [done] in a trace, in order, as the framework reads them. *)
Fixpoint verdicts (tr : list Event) : list Verdict :=
  match tr with
  | [] => []
  | DoneCall err user info :: rest => verdict err user info :: verdicts rest
  | _ :: rest => verdicts rest
  end.

(** Modelled from the spec: the framework's default challenge failure,
    status 401. *)
Definition challenge : Eff unit := res_status 401 ;; res_end.

(** Modelled from the spec: [passport.authenticate("bearer", ...)] with a
    bearer strategy, which is not part of the repository. A request that
    presents no bearer credential is rejected with 401 before anything
    else runs; a presented token is handed to the verify function, and on
    success the principal and the auxiliary info are attached to the
    request ([req.user], [req.authInfo]) and the chain continues. An
    error passed to [done] is forwarded, a refusal (a falsy user) is a
    challenge failure. *)
Definition authenticate (verify : Verify) : Express.Handler :=
  fun req =>
    match Req.bearer req with
    | None => challenge
    | Some token =>
        verify token (fun err user info =>
          match verdict err user info with
          | Failure e => next (Some e)
          | Refusal => challenge
          | Success u i => req_set "user" u ;; req_set "authInfo" i ;; next None
          end)
    end.

End Passport.

(** *** The middleware registered before the route *)

Module Chain.

(** Modelled from the spec: [cors()], which is not part of the
    repository. All origins are allowed and the request goes on. *)
Definition cors : Express.Handler :=
  fun _ =>
    res_set_header "Access-Control-Allow-Origin" "*" ;;
    next None.

(** Modelled from the spec: [helmet()], which is not part of the
    repository. The hardened response headers are applied (content-type
    sniffing prevention, frame-embedding restriction) and the request
    goes on. *)
Definition helmet : Express.Handler :=
  fun _ =>
    res_set_header "X-Content-Type-Options" "nosniff" ;;
    res_set_header "X-Frame-Options" "SAMEORIGIN" ;;
    next None.

(** Modelled from the spec: [express.json()], which is not part of the
    repository. An [application/json] body is parsed into [req.body]; a
    malformed one raises a parse error that is forwarded; any other
    request goes on untouched. *)
Definition json : Express.Handler :=
  fun req =>
    match Req.payload req with
    | Req.JsonPayload (Req.Parsed body) => req_set "body" body ;; next None
    | Req.JsonPayload (Req.Malformed e) => next (Some e)
    | _ => next None
    end.

(** Modelled from the spec: [express.urlencoded({extended: true})],
    which is not part of the repository; as [json], for
    [application/x-www-form-urlencoded] bodies. *)
Definition urlencoded : Express.Handler :=
  fun req =>
    match Req.payload req with
    | Req.FormPayload (Req.Parsed body) => req_set "body" body ;; next None
    | Req.FormPayload (Req.Malformed e) => next (Some e)
    | _ => next None
    end.

(** Modelled from the spec: the request-logging adapter in the chain. It
    lets every request through; its line is written once the
    request/response cycle is complete. *)
Definition observe : Express.Handler :=
  fun _ => next None.

(** A status code in decimal. *)
Definition decimal (code : Z) : string :=
  NilZero.string_of_int (Z.to_int code).

(** Modelled from the spec: the cycle the adapter reads once the
    response is finished: the request's method and URL, the status the
    response went out with, and the measured length and time. *)
Definition finished (req : Req.t) (tr : list Event) (m : Morgan.Measured) : Morgan.Cycle :=
  Morgan.mkCycle (Req.method req) (Req.originalUrl req)
    match Res.written (Res.run tr Res.fresh) with
    | [] => None
    | reply :: _ => Some (decimal (Res.reply_status reply))
    end
    (Morgan.content_length m) (Morgan.response_time_ms m).

End Chain.

(** *** The application's stack *)

Module Server.

(** What [app.use] and [app.post] register. *)
Inductive Layer : Type :=
| Use (h : Express.Handler)                                (* app.use(h) *)
| Post (path : string) (chain : list Express.Handler)      (* app.post(path, ...chain) *)
| UseError (h : Error.t -> Req.t -> Eff Completion).       (* app.use((error, req, res, next) => ...) *)

(** How a request leaves the stack. *)
Inductive End : Type :=
| Answered                 (* a layer ended the cycle *)
| Unmatched                (* no layer took the request *)
| Forwarded (e : Error.t)  (* an error was forwarded past the last layer *)
| Crashed.                 (* an error handler raised *)

(** Modelled from the spec: Express's dispatch over the stack, which is
    not part of the repository. The layers run strictly in registration
    order; a layer that does not call next ends the cycle; once an error
    is forwarded the remaining ordinary layers and routes are skipped
    and the error goes to the error-handling layers; without an error
    these are skipped. A route runs its chain when the method and the
    path match. *)
Fixpoint dispatch (stack : list Layer) (pending : option Error.t) (req : Req.t) : Eff End :=
  match stack with
  | [] =>
      ret match pending with
          | Some e => Forwarded e
          | None => Unmatched
          end
  | Use h :: rest =>
      match pending with
      | Some _ => dispatch rest pending req
      | None =>
          let tr := trace (h req) in
          match Express.next_call tr with
          | None => (tr, Answered)
          | Some p => bind (tr, tt) (fun _ => dispatch rest p req)
          end
      end
  | Post path chain :: rest =>
      match pending with
      | Some _ => dispatch rest pending req
      | None =>
          if (Req.method req =? "POST") && (Req.path req =? path)
          then
            o <- Express.route chain req ;;
            match o with
            | Express.Handled => ret Answered
            | Express.Fallthrough => dispatch rest None req
            | Express.Failed e => dispatch rest (Some e) req
            end
          else dispatch rest None req
      end
  | UseError h :: rest =>
      match pending with
      | None => dispatch rest None req
      | Some e =>
          c <- h e req ;;
          match c with
          | Raised => ret Crashed
          | Returned =>
              match Express.next_call (trace (h e req)) with
              | None => ret Answered
              | Some p => dispatch rest p req
              end
          end
      end
  end.

(** Modelled from the spec: the framework's default for a request no
    layer took, status 404. *)
Definition finalhandler (o : End) : Eff unit :=
  match o with
  | Unmatched => res_status 404 ;; res_end
  | _ => ret tt
  end.

End Server.

(** ** The application: [src/app.ts] *)

Module App.

(** [const levels = { error: 0, warn: 1, info: 2, http: 3, debug: 4 }] *)
Definition levels : list (string * Z) :=
  [("error", 0%Z); ("warn", 1%Z); ("info", 2%Z); ("http", 3%Z); ("debug", 4%Z)].

(** The three transports: the console, the error-only file and the
    combined file. *)
Definition transports : list Winston.Transport :=
  [ Winston.mkTransport "console" None;
    Winston.mkTransport "logs/error.log" (Some "error");
    Winston.mkTransport "logs/all.log" None ].

(** The morgan format of the source,
    [":method :url :status :res[content-length] - :response-time ms"]. *)
Definition format : list Morgan.Piece :=
  [ Morgan.Token "method" None; Morgan.Lit " ";
    Morgan.Token "url" None; Morgan.Lit " ";
    Morgan.Token "status" None; Morgan.Lit " ";
    Morgan.Token "res" (Some "content-length"); Morgan.Lit " - ";
    Morgan.Token "response-time" None; Morgan.Lit " ms" ].

Section Process.

(** [process.env.NODE_ENV]: [None] when the variable is unset. *)
Variable NODE_ENV : option string.

Definition level : string :=
  let env := NODE_ENV ||j "development" in
  let isDevelopment := env =? "development" in
  if isDevelopment then "debug" else "warn".

Definition logger : Winston.Logger :=
  Winston.createLogger level levels transports.

(** [stream.write]: [(message) => logger.http(message)]. *)
Definition stream_write (message : string) : Eff unit :=
  emit (LoggerLog "http" message).

Definition skip (_ : unit) : bool :=
  let env := NODE_ENV ||j "development" in
  negb (env =? "development").

Definition morganMiddleware : Morgan.Cycle -> Eff unit :=
  Morgan.morgan format stream_write skip.

End Process.

(** How an [async] function settles. *)
Inductive Settled : Type :=
| Resolved
| Rejected (reason : Error.t).

(** [Promise.resolve(fn(req, res, next)).catch(next)] *)
Definition asyncWrapper (fn : Req.t -> Eff Settled) : Express.Handler :=
  fun req =>
    s <- fn req ;;
    match s with
    | Resolved => ret tt
    | Rejected reason => next (Some reason)
    end.

(** The verify function of the bearer strategy. *)
Definition bearer_verify : Passport.Verify :=
  fun token done =>
    console_log ["HELLLLOOO ::::"; token] ;;
    let user := JObj [] in
    done None user (JObj [("scope", JStr "all")]).

(** The handler of [POST /]. *)
Definition root_handler (req : Req.t) : Eff Settled :=
  emit (LoggerLog "debug" "foo") ;;
  res_send "Express + TypeScript Server" ;;
  ret Resolved.

(** [app.post("/", passport.authenticate("bearer", ...), asyncWrapper(...))] *)
Definition post_root : list Express.Handler :=
  [ Passport.authenticate bearer_verify; asyncWrapper root_handler ].

(** [class HTTPError extends Error]: the constructor stores its first
    argument in [status]; [Object.setPrototypeOf] keeps the constructor,
    and [name] is reset to [Error.name]. *)
Definition HTTPError (statusCode : Z) (message : string) : Error.t :=
  {| Error.constructor_name := "HTTPError";
     Error.name := "Error";
     Error.message := message;
     Error.status := Some statusCode;
     Error.statusCode := None |}.

(** The terminal error-formatting middleware. [next(error)] is the
    statement after [res.status(...).json(...)]: it is reached only if
    that chain returns. *)
Definition error_middleware (error : Error.t) (req : Req.t) : Eff Completion :=
  let customError : bool :=
    if (Error.constructor_name error =? "NodeError")
       || (Error.constructor_name error =? "SyntaxError")
    then false
    else true in
  c <- res_status_json (Error.statusCode error ||j 500%Z) (JObj
    [ ("response", JStr "Error");
      ("error", JObj
        [ ("type", JStr (if Bool.eqb customError false
                         then "UnhandledError"
                         else Error.constructor_name error));
          ("path", JStr (Req.path req));
          ("statusCode", JNum (Error.statusCode error ||j 500%Z));
          ("message", JStr (Error.message error)) ]) ]) ;;
  match c with
  | Raised => ret Raised
  | Returned => next (Some error) ;; ret Returned
  end.

(** What the program registers on [app], in order: [cors()],
    [helmet()], [express.json()], [express.urlencoded(...)],
    [morganMiddleware], the route of [POST /] and the error-formatting
    middleware. *)
Definition stack : list Server.Layer :=
  [ Server.Use Chain.cors;
    Server.Use Chain.helmet;
    Server.Use Chain.json;
    Server.Use Chain.urlencoded;
    Server.Use Chain.observe;
    Server.Post "/" post_root;
    Server.UseError error_middleware ].

(** One request through the stack, up to the end of the response. *)
Definition serve (req : Req.t) : Eff Server.End :=
  o <- Server.dispatch stack None req ;;
  Server.finalhandler o ;;
  ret o.

(** One request/response cycle: the request goes through the stack and
    the request-logging adapter then writes its line. *)
Definition app (NODE_ENV : option string) (m : Morgan.Measured) (req : Req.t)
    : Eff Server.End :=
  o <- serve req ;;
  morganMiddleware NODE_ENV (Chain.finished req (trace (serve req)) m) ;;
  ret o.

End App.

(** ** The specification's wording *)

Module Spec.

(** "debug when the environment indicator equals development or is
    unset": the environments the specification names. *)
Definition development_as_stated (NODE_ENV : option string) : Prop :=
  NODE_ENV = Some "development" \/ NODE_ENV = None.

(** The same, with the empty value counted as unset. *)
Definition development (NODE_ENV : option string) : Prop :=
  NODE_ENV = Some "development" \/ NODE_ENV = None \/ NODE_ENV = Some "".

(** "NODE_ENV, defaulting to development when unset". *)
Definition default_when_unset (NODE_ENV : option string) : string :=
  match NODE_ENV with
  | Some env => env
  | None => "development"
  end.

(** Classification rule: an error whose type name is one of the two
    built-in categories is an "UnhandledError"; any other error is
    labelled with its own type name. *)
Definition classification (error : Error.t) : string :=
  if existsb (String.eqb (Error.constructor_name error)) ["NodeError"; "SyntaxError"]
  then "UnhandledError"
  else Error.constructor_name error.

(** Status code resolution: the error's own status code attribute if
    present and non-zero, otherwise 500. *)
Definition resolved_status (error : Error.t) : Z :=
  match Error.statusCode error with
  | Some code => if (code =? 0)%Z then 500%Z else code
  | None => 500%Z
  end.

(** The error envelope
    [{response: "Error", error: {type, path, statusCode, message}}]. *)
Definition envelope (type path : string) (statusCode : Z) (message : string) : Json :=
  JObj [ ("response", JStr "Error");
         ("error", JObj [ ("type", JStr type);
                          ("path", JStr path);
                          ("statusCode", JNum statusCode);
                          ("message", JStr message) ]) ].

(** The line of the request-logging adapter: method, path, status,
    content length and response time. *)
Definition http_line (c : Morgan.Cycle) : string :=
  (Morgan.method c ++ " " ++ Morgan.url c ++ " "
   ++ Morgan.or_dash (Morgan.status c) ++ " "
   ++ Morgan.or_dash (Morgan.res_content_length c) ++ " - "
   ++ Morgan.or_dash (Morgan.response_time c) ++ " ms" ++ Morgan.newline)%string.

End Spec.

(** The logger level claimed for one value of the environment: "debug"
    exactly when it equals "development" or is unset, "warn" for every
    other value. *)
Definition level_as_stated (NODE_ENV : option string) : Prop :=
  (App.level NODE_ENV = "debug" <-> Spec.development_as_stated NODE_ENV)
  /\ (~ Spec.development_as_stated NODE_ENV -> App.level NODE_ENV = "warn").

(** The skip predicate claimed for one value of the environment: true
    exactly when [NODE_ENV], defaulting to "development" when unset, is
    not "development". *)
Definition skip_as_stated (NODE_ENV : option string) : Prop :=
  App.skip NODE_ENV tt = true <-> Spec.default_when_unset NODE_ENV <> "development".








(** A request of [POST /]. *)
Definition post_root_request (bearer : option string) : Req.t :=
  Req.mk "POST" "/" "/" bearer Req.NoPayload.

(** A field of the [error] object of the envelope a reply carries. *)
Definition reply_field (key : string) (r : Res.Reply) : option Json :=
  match Res.reply_body r with
  | Res.JsonBody body =>
      match Js.get "error" body with
      | Some inner => Js.get key inner
      | None => None
      end
  | _ => None
  end.

(** The request-logging adapter built without the [skip] option. *)
Definition morganMiddleware_without_skip : Morgan.Cycle -> Eff unit :=
  Morgan.morgan App.format App.stream_write (fun _ => false).

(** ** Properties *)

(** *** The environment indicator *)

Section Environment.

Variable NODE_ENV : option string.

(** The value both [level] and [skip] compare with "development". *)
Lemma or_else_development :
  ((NODE_ENV ||j "development") =? "development") = true
  <-> Spec.development NODE_ENV.
Proof.
  unfold Spec.development, Js.or_else, truthy, truthy_string.
  destruct NODE_ENV as [env|]; [|now intuition].
  destruct (String.eqb_spec env "") as [->|Hne]; cbn [negb].
  - split; [intros _; now right; right | reflexivity].
  - rewrite String.eqb_eq. split.
    + intros ->. now left.
    + intros [H|[H|H]]; inversion H; subst; easy.
Qed.

(** [level] and [skip] branch on that one comparison. *)
Ltac by_environment_test :=
  rewrite <- or_else_development; unfold App.level, App.skip;
  destruct ((NODE_ENV ||j "development") =? "development"); split; easy.

Lemma level_debug : App.level NODE_ENV = "debug" <-> Spec.development NODE_ENV.
Proof. by_environment_test. Qed.

Lemma level_warn : App.level NODE_ENV = "warn" <-> ~ Spec.development NODE_ENV.
Proof. by_environment_test. Qed.

Lemma skip_true : App.skip NODE_ENV tt = true <-> ~ Spec.development NODE_ENV.
Proof. by_environment_test. Qed.

Lemma skip_false : App.skip NODE_ENV tt = false <-> Spec.development NODE_ENV.
Proof. by_environment_test. Qed.

End Environment.

(** C5, as stated, fails when [NODE_ENV] is set to the empty string: the
    value is neither "development" nor unset, and the level is "debug",
    not "warn". *)
Lemma level_as_stated_fails_on_empty :
  App.level (Some "") = "debug"
  /\ ~ Spec.development_as_stated (Some "")
  /\ ~ level_as_stated (Some "").
Proof.
  assert (Hnot : ~ Spec.development_as_stated (Some "")).
  { intros [H|H]; discriminate H. }
  split; [reflexivity | split; [exact Hnot|]].
  intros [Hiff _]. apply Hnot, Hiff. reflexivity.
Qed.

(** C5 (amended): the logger's effective minimum level is "debug" exactly
    when [NODE_ENV] equals "development", is unset or is the empty string,
    and "warn" for every other value. *)
Theorem level_by_environment :
  forall NODE_ENV : option string,
    (App.level NODE_ENV = "debug" <-> Spec.development NODE_ENV)
    /\ (App.level NODE_ENV = "warn" <-> ~ Spec.development NODE_ENV)
    /\ Winston.level (App.logger NODE_ENV) = App.level NODE_ENV.
Proof.
  intros NODE_ENV. split; [apply level_debug | split; [apply level_warn | reflexivity]].
Qed.

Example level_unset : App.level None = "debug".
Proof. reflexivity. Qed.

Example level_development : App.level (Some "development") = "debug".
Proof. reflexivity. Qed.

Example level_production : App.level (Some "production") = "warn".
Proof. reflexivity. Qed.

Example level_test : App.level (Some "test") = "warn".
Proof. reflexivity. Qed.

(** *** The request-logging adapter *)

Lemma string_app_assoc :
  forall s1 s2 s3 : string, ((s1 ++ s2) ++ s3 = s1 ++ (s2 ++ s3))%string.
Proof.
  induction s1 as [|ch s1 IH]; intros s2 s3; cbn; [reflexivity | now rewrite IH].
Qed.

(** The format of the source renders as the line of the specification. *)
Lemma render_format :
  forall c : Morgan.Cycle,
    (Morgan.render App.format c ++ Morgan.newline)%string = Spec.http_line c.
Proof.
  intros c. unfold Spec.http_line. cbn.
  repeat (rewrite string_app_assoc; cbn [append]).
  reflexivity.
Qed.

Section Logging.

Variable NODE_ENV : option string.
Variable c : Morgan.Cycle.

Lemma morgan_development :
  Spec.development NODE_ENV ->
  App.morganMiddleware NODE_ENV c = ([LoggerLog "http" (Spec.http_line c)], tt).
Proof.
  intros H. apply skip_false in H.
  unfold App.morganMiddleware, Morgan.morgan. rewrite H.
  unfold App.stream_write, emit. now rewrite render_format.
Qed.

Lemma morgan_skipped :
  ~ Spec.development NODE_ENV ->
  App.morganMiddleware NODE_ENV c = ([], tt).
Proof.
  intros H. apply skip_true in H.
  unfold App.morganMiddleware, Morgan.morgan. now rewrite H.
Qed.

(** In development the logger passes an "http" record to the console and
    to the combined file. *)
Lemma http_emitted_development :
  forall msg : string,
    Spec.development NODE_ENV ->
    Winston.emitted (App.logger NODE_ENV) [("http", msg)]
    = [ Winston.mkEntry "console" "http" msg;
        Winston.mkEntry "logs/all.log" "http" msg ].
Proof.
  intros msg H. apply level_debug in H.
  unfold App.logger. rewrite H. reflexivity.
Qed.

(** Outside development the logger's own level drops an "http" record,
    whether or not the adapter skipped it. *)
Lemma http_dropped_outside_development :
  forall msg : string,
    ~ Spec.development NODE_ENV ->
    Winston.emitted (App.logger NODE_ENV) [("http", msg)] = [].
Proof.
  intros msg H. apply level_warn in H.
  unfold App.logger. rewrite H. reflexivity.
Qed.

End Logging.

(** C6, as stated, fails when [NODE_ENV] is set to the empty string: the
    variable is set, its value is not "development", and [skip] answers
    false. *)
Lemma skip_as_stated_fails_on_empty :
  App.skip (Some "") tt = false
  /\ Spec.default_when_unset (Some "") <> "development"
  /\ ~ skip_as_stated (Some "").
Proof.
  split; [reflexivity | split; [discriminate|]].
  intros Hiff.
  assert (H : App.skip (Some "") tt = true) by (apply Hiff; discriminate).
  discriminate H.
Qed.

(** C6 (amended): [skip] returns true exactly when [NODE_ENV], defaulting
    to "development" when unset or empty, is not "development". In
    development mode a request/response cycle produces exactly one call
    of the logger, at the "http" level, whose line carries the method,
    the path, the status, the content length and the response time, and
    the console and the combined file receive it; in any other mode the
    adapter makes no call at all and no sink receives anything. *)
Theorem skip_and_http_line :
  forall (NODE_ENV : option string) (c : Morgan.Cycle),
    (App.skip NODE_ENV tt = true <-> ~ Spec.development NODE_ENV)
    /\ (Spec.development NODE_ENV ->
        trace (App.morganMiddleware NODE_ENV c)
        = [LoggerLog "http" (Spec.http_line c)]
        /\ Winston.emitted (App.logger NODE_ENV)
             (logger_calls (trace (App.morganMiddleware NODE_ENV c)))
           = [ Winston.mkEntry "console" "http" (Spec.http_line c);
               Winston.mkEntry "logs/all.log" "http" (Spec.http_line c) ])
    /\ (~ Spec.development NODE_ENV ->
        trace (App.morganMiddleware NODE_ENV c) = []
        /\ Winston.emitted (App.logger NODE_ENV)
             (logger_calls (trace (App.morganMiddleware NODE_ENV c)))
           = []).
Proof.
  intros NODE_ENV c. split; [apply skip_true | split].
  - intros H. rewrite (morgan_development NODE_ENV c H). cbn [trace fst logger_calls].
    split; [reflexivity | now apply http_emitted_development].
  - intros H. rewrite (morgan_skipped NODE_ENV c H). now split.
Qed.

Example http_line_post_root :
  trace (App.morganMiddleware (Some "development")
           (Morgan.mkCycle "POST" "/" (Some "200") (Some "27") (Some "3.141")))
  = [LoggerLog "http" ("POST / 200 27 - 3.141 ms" ++ Morgan.newline)%string].
Proof. reflexivity. Qed.

Example http_line_production :
  trace (App.morganMiddleware (Some "production")
           (Morgan.mkCycle "POST" "/" (Some "200") (Some "27") (Some "3.141")))
  = [].
Proof. reflexivity. Qed.

(** *** The error-formatting middleware *)

Section ErrorMiddleware.

Variable error : Error.t.
Variable req : Req.t.

(** [error.statusCode || 500] resolves as the specification says. *)
Lemma statusCode_or_500 :
  (Error.statusCode error ||j 500%Z) = Spec.resolved_status error.
Proof.
  unfold Js.or_else, Spec.resolved_status, truthy, truthy_number.
  destruct (Error.statusCode error) as [code|]; [|reflexivity].
  now destruct (code =? 0)%Z.
Qed.

(** The [customError] flag of the source selects the specification's label. *)
Lemma customError_classification :
  (if Bool.eqb
        (if (Error.constructor_name error =? "NodeError")
            || (Error.constructor_name error =? "SyntaxError")
         then false else true)
        false
   then "UnhandledError"
   else Error.constructor_name error)
  = Spec.classification error.
Proof.
  unfold Spec.classification. cbn [existsb].
  rewrite orb_false_r.
  now destruct ((Error.constructor_name error =? "NodeError")
                || (Error.constructor_name error =? "SyntaxError")).
Qed.

(** The calls the middleware makes, in order: [next] comes last, and
    only if the write returned. *)
Lemma error_middleware_trace :
  trace (App.error_middleware error req)
  = [ ResStatus (Spec.resolved_status error);
      ResJson (Spec.envelope (Spec.classification error) (Req.path req)
                 (Spec.resolved_status error) (Error.message error)) ]
    ++ (if Res.writable (Spec.resolved_status error)
        then [Next (Some error)]
        else []).
Proof.
  unfold App.error_middleware.
  rewrite customError_classification, statusCode_or_500.
  unfold res_status_json.
  destruct (Res.writable (Spec.resolved_status error)); reflexivity.
Qed.


Lemma error_middleware_replies :
  replies (App.error_middleware error req)
  = [ Res.mkReply (Spec.resolved_status error)
        (Res.JsonBody
           (Spec.envelope (Spec.classification error) (Req.path req)
              (Spec.resolved_status error) (Error.message error))) ].
Proof.
  unfold replies. rewrite error_middleware_trace.
  destruct (Res.writable (Spec.resolved_status error)); reflexivity.
Qed.

End ErrorMiddleware.

(** The classification, case by case. *)
Lemma classification_builtin :
  forall error : Error.t,
    Error.constructor_name error = "NodeError"
    \/ Error.constructor_name error = "SyntaxError" ->
    Spec.classification error = "UnhandledError".
Proof.
  intros error [H|H]; unfold Spec.classification; rewrite H; reflexivity.
Qed.


(** A status code the middleware can read is honoured. *)
Lemma statusCode_attribute_honoured :
  forall (error : Error.t) (code : Z),
    Error.statusCode error = Some code -> code <> 0%Z ->
    Spec.resolved_status error = code.
Proof.
  intros error code H Hnz. unfold Spec.resolved_status. rewrite H.
  apply Z.eqb_neq in Hnz. now rewrite Hnz.
Qed.

Lemma statusCode_absent_is_500 :
  forall error : Error.t,
    Error.statusCode error = None -> Spec.resolved_status error = 500%Z.
Proof.
  intros error H. unfold Spec.resolved_status. now rewrite H.
Qed.






(** *** [HTTPError] through the middleware *)

(** An [HTTPError] carries its code in [status]; the attribute the
    middleware reads, [statusCode], is absent. *)
Lemma HTTPError_attributes :
  forall (code : Z) (message : string),
    Error.status (App.HTTPError code message) = Some code
    /\ Error.statusCode (App.HTTPError code message) = None
    /\ Error.constructor_name (App.HTTPError code message) = "HTTPError".
Proof. intros code message. repeat split. Qed.

(** C1 at [new HTTPError(400, "FOO NOT FOUND")]: the envelope is typed
    "HTTPError", and the response goes out with status 500, not 400. *)
Theorem HTTPError_400_answered_500 :
  replies (App.error_middleware (App.HTTPError 400 "FOO NOT FOUND")
             (post_root_request (Some "anything123")))
  = [ Res.mkReply 500
        (Res.JsonBody
           (Spec.envelope "HTTPError" "/" 500 "FOO NOT FOUND")) ].
Proof. reflexivity. Qed.

(** The same for every code and message, also when the error is thrown
    inside a wrapped handler and reaches the middleware through [next]. *)
Lemma HTTPError_always_answered_500 :
  forall (code : Z) (message : string) (req : Req.t),
    trace (App.asyncWrapper (fun _ => ret (App.Rejected (App.HTTPError code message))) req)
    = [Next (Some (App.HTTPError code message))]
    /\ map Res.reply_status
         (replies (App.error_middleware (App.HTTPError code message) req))
       = [500%Z].
Proof.
  intros code message req. split; [reflexivity|].
  now rewrite error_middleware_replies.
Qed.

(** *** Parse errors through the middleware *)

(** A [SyntaxError] without a [statusCode] attribute is answered 500 and
    labelled "UnhandledError". *)
Lemma SyntaxError_without_statusCode :
  forall (error : Error.t) (req : Req.t),
    Error.constructor_name error = "SyntaxError" ->
    Error.statusCode error = None ->
    replies (App.error_middleware error req)
    = [ Res.mkReply 500
          (Res.JsonBody
             (Spec.envelope "UnhandledError" (Req.path req) 500 (Error.message error))) ].
Proof.
  intros error req Hname Hcode. rewrite error_middleware_replies.
  rewrite (classification_builtin error (or_intror Hname)).
  now rewrite (statusCode_absent_is_500 error Hcode).
Qed.

(** A [SyntaxError] that carries a non-zero [statusCode] is answered with
    that code, still labelled "UnhandledError". *)
Lemma SyntaxError_with_statusCode :
  forall (error : Error.t) (req : Req.t) (code : Z),
    Error.constructor_name error = "SyntaxError" ->
    Error.statusCode error = Some code -> code <> 0%Z ->
    replies (App.error_middleware error req)
    = [ Res.mkReply code
          (Res.JsonBody
             (Spec.envelope "UnhandledError" (Req.path req) code (Error.message error))) ].
Proof.
  intros error req code Hname Hcode Hnz. rewrite error_middleware_replies.
  rewrite (classification_builtin error (or_intror Hname)).
  now rewrite (statusCode_attribute_honoured error code Hcode Hnz).
Qed.

(** *** The bearer strategy and the route *)

(** C7: for every presented token, the empty one included, the verify
    function calls [done] exactly once, with no error, the empty object
    as principal and [{scope: "all"}] as auxiliary info, which the
    framework reads as a success; whatever [done] is, it receives these
    arguments after the token has been printed. *)
Theorem bearer_verify_always_succeeds :
  forall token : string,
    trace (App.bearer_verify token Passport.record_done)
    = [ ConsoleLog ["HELLLLOOO ::::"; token];
        DoneCall None (JObj []) (JObj [("scope", JStr "all")]) ]
    /\ Passport.verdicts (trace (App.bearer_verify token Passport.record_done))
       = [Passport.Success (JObj []) (JObj [("scope", JStr "all")])]
    /\ (forall done : Passport.Done,
          App.bearer_verify token done
          = (console_log ["HELLLLOOO ::::"; token] ;;
             done None (JObj []) (JObj [("scope", JStr "all")]))).
Proof.
  intros token. repeat split.
Qed.

(** Authentication lets every presented token through: the principal and
    the info are attached and [next] is called without an error. *)
Lemma authenticate_presented_token :
  forall (token : string) (req : Req.t),
    Req.bearer req = Some token ->
    trace (Passport.authenticate App.bearer_verify req)
    = [ ConsoleLog ["HELLLLOOO ::::"; token];
        ReqSet "user" (JObj []);
        ReqSet "authInfo" (JObj [("scope", JStr "all")]);
        Next None ].
Proof.
  intros token req H. unfold Passport.authenticate. now rewrite H.
Qed.

(** Authentication turns a request without a credential away. *)
Lemma authenticate_no_credential :
  forall req : Req.t,
    Req.bearer req = None ->
    trace (Passport.authenticate App.bearer_verify req) = [ResStatus 401; ResEnd].
Proof.
  intros req H. unfold Passport.authenticate. now rewrite H.
Qed.

(** C8: for every request that reaches it, the wrapped handler of
    [POST /] logs the fixed message "foo" at the "debug" level and then
    sends "Express + TypeScript Server"; the response goes out once, with
    status 200 and exactly that body, and the handler does nothing else:
    it neither calls [next] nor prints. *)
Theorem root_handler_responds :
  forall req : Req.t,
    App.asyncWrapper App.root_handler req
    = ([LoggerLog "debug" "foo"; ResSend "Express + TypeScript Server"], tt)
    /\ replies (App.asyncWrapper App.root_handler req)
       = [Res.mkReply 200 (Res.TextBody "Express + TypeScript Server")]
    /\ logger_calls (trace (App.asyncWrapper App.root_handler req)) = [("debug", "foo")]
    /\ next_calls (trace (App.asyncWrapper App.root_handler req)) = [].
Proof.
  intros req. repeat split.
Qed.

(** ** Further properties of the application *)

(** *** Traces *)

Lemma run_app :
  forall (t1 t2 : list Event) (r : Res.t),
    Res.run (t1 ++ t2) r = Res.run t2 (Res.run t1 r).
Proof. intros t1 t2 r. apply fold_left_app. Qed.



Lemma next_call_app_none :
  forall t1 t2 : list Event,
    Express.next_call t1 = None ->
    Express.next_call (t1 ++ t2) = Express.next_call t2.
Proof.
  induction t1 as [|e t1 IH]; intros t2 H; [reflexivity|].
  destruct e; cbn in *; try (now apply IH); discriminate H.
Qed.

(** *** [asyncWrapper] *)


(** X2: on the route's chain with any wrapped function in the handler's
    place, a request that presents a token and whose handler rejects
    without calling [next] itself leaves the route with that error: the
    handler's calls are kept and the error is what the chain fails with. *)
Theorem rejection_leaves_the_route :
  forall (fn : Req.t -> Eff App.Settled) (req : Req.t) (token : string)
         (tr : list Event) (e : Error.t),
    Req.bearer req = Some token ->
    fn req = (tr, App.Rejected e) ->
    Express.next_call tr = None ->
    Express.route [Passport.authenticate App.bearer_verify; App.asyncWrapper fn] req
    = ([ ConsoleLog ["HELLLLOOO ::::"; token];
         ReqSet "user" (JObj []);
         ReqSet "authInfo" (JObj [("scope", JStr "all")]);
         Next None ] ++ tr ++ [Next (Some e)],
       Express.Failed e).
Proof.
  intros fn req token tr e Hb Hfn Hnext.
  cbn [Express.route].
  rewrite (authenticate_presented_token token req Hb). cbn [Express.next_call].
  unfold App.asyncWrapper at 1 2. rewrite Hfn.
  cbn [bind next emit trace fst].
  rewrite (next_call_app_none tr [Next (Some e)] Hnext).
  cbn [Express.next_call bind ret]. reflexivity.
Qed.

Lemma rejection_leaves_the_route_witness :
  Req.bearer (post_root_request (Some "anything123")) = Some "anything123"
  /\ snd (Express.route
            [ Passport.authenticate App.bearer_verify;
              App.asyncWrapper
                (fun _ => ret (App.Rejected (App.HTTPError 400 "FOO NOT FOUND"))) ]
            (post_root_request (Some "anything123")))
     = Express.Failed (App.HTTPError 400 "FOO NOT FOUND").
Proof.
  split; [reflexivity|].
  rewrite (rejection_leaves_the_route
             (fun _ => ret (App.Rejected (App.HTTPError 400 "FOO NOT FOUND")))
             (post_root_request (Some "anything123")) "anything123" []
             (App.HTTPError 400 "FOO NOT FOUND")
             eq_refl eq_refl eq_refl).
  reflexivity.
Defined.

(** *** The route of [POST /] *)

(** X3: every request that reaches the route of [POST /] fares in one
    of two ways, and the route ends there. Without a credential only
    the 401 challenge is made; with a token the token is printed, the
    principal and the info are attached, the message is logged and the
    fixed body is sent. The route never falls through and never fails
    with an error, and it writes exactly one response. *)
Theorem post_root_route :
  forall req : Req.t,
    Express.route App.post_root req
    = (match Req.bearer req with
       | None => [ResStatus 401; ResEnd]
       | Some token =>
           [ ConsoleLog ["HELLLLOOO ::::"; token];
             ReqSet "user" (JObj []);
             ReqSet "authInfo" (JObj [("scope", JStr "all")]);
             Next None;
             LoggerLog "debug" "foo";
             ResSend "Express + TypeScript Server" ]
       end,
       Express.Handled)
    /\ length (replies (Express.route App.post_root req)) = 1%nat.
Proof.
  intros req.
  match goal with |- ?lhs = ?rhs /\ _ => assert (Hroute : lhs = rhs) end.
  { unfold App.post_root. cbn [Express.route].
    destruct (Req.bearer req) as [token|] eqn:Hb.
    - rewrite (authenticate_presented_token token req Hb). reflexivity.
    - rewrite (authenticate_no_credential req Hb). reflexivity. }
  split; [exact Hroute|]. unfold replies. rewrite Hroute.
  destruct (Req.bearer req); reflexivity.
Qed.

(** *** The logger and its sinks *)

Lemma assoc_In :
  forall (V : Type) (key : string) (fields : list (string * V)) (v : V),
    Js.assoc key fields = Some v -> In (key, v) fields.
Proof.
  induction fields as [|[k w] rest IH]; intros v H; [discriminate H|].
  cbn in H. destruct (String.eqb_spec k key) as [->|_].
  - inversion H. now left.
  - right. now apply IH.
Qed.

(** What a sink receives: the calls its effective level admits. *)
Lemma emitted_In :
  forall (lg : Winston.Logger) (calls : list (string * string))
         (s lvl msg : string),
    In (Winston.mkEntry s lvl msg) (Winston.emitted lg calls)
    <-> In (lvl, msg) calls
        /\ exists t : Winston.Transport,
             In t (Winston.transports lg)
             /\ Winston.sink t = s
             /\ Winston.enabled lg t lvl = true.
Proof.
  intros lg calls s lvl msg. unfold Winston.emitted. rewrite in_flat_map. split.
  - intros [[lvl' msg'] [Hcall Hd]]. unfold Winston.deliver in Hd.
    apply in_map_iff in Hd as [t [Heq Hf]].
    apply filter_In in Hf as [Ht Hen].
    inversion Heq; subst. split; [assumption|]. now exists t.
  - intros [Hcall [t [Ht [Hs Hen]]]]. exists (lvl, msg). split; [assumption|].
    unfold Winston.deliver. apply in_map_iff. exists t.
    split; [now rewrite Hs | now apply filter_In].
Qed.

Section Thresholds.

Variable ts : list Winston.Transport.

(** A level of the table, by its rank. *)
Ltac by_rank H :=
  match type of H with
  | Winston.enabled _ _ ?lvl = true =>
      unfold Winston.enabled in H; cbn [Winston.levels] in H;
      destruct (Js.assoc lvl App.levels) as [l|] eqn:E;
        [|cbn in H; discriminate H];
      apply assoc_In in E; cbn in E;
      repeat (destruct E as [E|E]; [inversion E; subst; clear E|]);
      try contradiction; cbn in H; try discriminate H
  end.

Lemma admitted_at_error :
  forall (th s lvl : string),
    Winston.enabled (Winston.createLogger th App.levels ts)
      (Winston.mkTransport s (Some "error")) lvl = true
    <-> lvl = "error".
Proof.
  intros th s lvl. split; [intros H; by_rank H; reflexivity | now intros ->].
Qed.

Lemma admitted_at_warn :
  forall (s lvl : string),
    Winston.enabled (Winston.createLogger "warn" App.levels ts)
      (Winston.mkTransport s None) lvl = true
    <-> lvl = "error" \/ lvl = "warn".
Proof.
  intros s lvl. split.
  - intros H; by_rank H; auto.
  - now intros [->| ->].
Qed.

Lemma admitted_at_debug :
  forall (s lvl : string),
    Winston.enabled (Winston.createLogger "debug" App.levels ts)
      (Winston.mkTransport s None) lvl = true
    <-> In lvl (map fst App.levels).
Proof.
  intros s lvl. split.
  - intros H; by_rank H; cbn; auto 6.
  - cbn. intros H. repeat (destruct H as [<-|H]; [reflexivity|]). contradiction.
Qed.

End Thresholds.

Lemma development_or_not :
  forall NODE_ENV : option string,
    Spec.development NODE_ENV \/ ~ Spec.development NODE_ENV.
Proof.
  intros NODE_ENV. rewrite <- or_else_development.
  destruct ((NODE_ENV ||j "development") =? "development"); [now left | now right].
Qed.

Section Sinks.

Variable NODE_ENV : option string.
Variable calls : list (string * string).

(** The transports of the logger, one at a time. *)
Ltac each_transport Ht Hs :=
  cbn in Ht; destruct Ht as [<-|[<-|[<-|[]]]]; cbn in Hs;
  try discriminate Hs; clear Hs.

(** A sink without a level of its own receives what the logger's level
    admits. *)
Lemma unlevelled_sink :
  forall s lvl msg : string,
    s = "console" \/ s = "logs/all.log" ->
    In (Winston.mkEntry s lvl msg) (Winston.emitted (App.logger NODE_ENV) calls)
    <-> In (lvl, msg) calls
        /\ Winston.enabled (App.logger NODE_ENV) (Winston.mkTransport s None) lvl = true.
Proof.
  intros s lvl msg Hs. rewrite emitted_In. split.
  - intros [Hc [t [Ht [Heq Hen]]]]. split; [assumption|].
    destruct Hs as [-> | ->]; each_transport Ht Heq; exact Hen.
  - intros [Hc Hen]. split; [assumption|].
    exists (Winston.mkTransport s None).
    destruct Hs as [-> | ->]; cbn; auto.
Qed.

(** X4: in every environment the error file receives the calls made at
    the "error" level and nothing else. *)
Theorem error_log_receives_exactly_the_errors :
  forall lvl msg : string,
    In (Winston.mkEntry "logs/error.log" lvl msg)
       (Winston.emitted (App.logger NODE_ENV) calls)
    <-> lvl = "error" /\ In ("error", msg) calls.
Proof.
  intros lvl msg. rewrite emitted_In. split.
  - intros [Hc [t [Ht [Hs Hen]]]]. each_transport Ht Hs.
    apply admitted_at_error in Hen. subst lvl. now split.
  - intros [-> Hc]. split; [assumption|].
    exists (Winston.mkTransport "logs/error.log" (Some "error")).
    cbn. auto.
Qed.

(** X5: outside development no sink receives anything below "warn", and
    the console receives exactly the calls made at "error" or "warn". *)
Theorem outside_development_only_warn_and_error :
  ~ Spec.development NODE_ENV ->
  forall lvl msg : string,
    (forall s : string,
        In (Winston.mkEntry s lvl msg) (Winston.emitted (App.logger NODE_ENV) calls) ->
        lvl = "error" \/ lvl = "warn")
    /\ (In (Winston.mkEntry "console" lvl msg)
           (Winston.emitted (App.logger NODE_ENV) calls)
        <-> In (lvl, msg) calls /\ (lvl = "error" \/ lvl = "warn")).
Proof.
  intros Hprod lvl msg. apply level_warn in Hprod. split.
  - intros s H. apply emitted_In in H as [_ [t [Ht [_ Hen]]]].
    unfold App.logger in Hen. rewrite Hprod in Hen. cbn in Ht.
    destruct Ht as [<-|[<-|[<-|[]]]].
    + now apply admitted_at_warn in Hen.
    + apply admitted_at_error in Hen. now left.
    + now apply admitted_at_warn in Hen.
  - rewrite unlevelled_sink by now left.
    unfold App.logger. rewrite Hprod. now rewrite admitted_at_warn.
Qed.

(** X6: in development the console receives every call made at one of
    the five levels of the table. *)
Theorem development_console_receives_every_level :
  Spec.development NODE_ENV ->
  forall lvl msg : string,
    In (Winston.mkEntry "console" lvl msg)
       (Winston.emitted (App.logger NODE_ENV) calls)
    <-> In (lvl, msg) calls
        /\ In lvl ["error"; "warn"; "info"; "http"; "debug"].
Proof.
  intros Hdev lvl msg. apply level_debug in Hdev.
  rewrite unlevelled_sink by now left.
  unfold App.logger. rewrite Hdev. now rewrite admitted_at_debug.
Qed.

(** X7: the console and the combined file receive the same records. *)
Theorem console_and_combined_file_agree :
  forall lvl msg : string,
    In (Winston.mkEntry "console" lvl msg)
       (Winston.emitted (App.logger NODE_ENV) calls)
    <-> In (Winston.mkEntry "logs/all.log" lvl msg)
          (Winston.emitted (App.logger NODE_ENV) calls).
Proof.
  intros lvl msg.
  rewrite (unlevelled_sink "console") by now left.
  rewrite (unlevelled_sink "logs/all.log") by now right.
  reflexivity.
Qed.

End Sinks.

Lemma outside_development_only_warn_and_error_witness :
  ~ Spec.development (Some "production")
  /\ ~ In (Winston.mkEntry "console" "info" "started")
          (Winston.emitted (App.logger (Some "production"))
             [("info", "started"); ("warn", "slow")]).
Proof.
  assert (Hprod : ~ Spec.development (Some "production")).
  { intros [H|[H|H]]; discriminate H. }
  split; [exact Hprod|]. intros H.
  apply (proj1 (outside_development_only_warn_and_error
                  (Some "production") [("info", "started"); ("warn", "slow")]
                  Hprod "info" "started")) in H.
  destruct H as [H|H]; discriminate H.
Defined.

Lemma development_console_receives_every_level_witness :
  Spec.development None
  /\ In (Winston.mkEntry "console" "debug" "foo")
        (Winston.emitted (App.logger None) [("debug", "foo")]).
Proof.
  assert (Hdev : Spec.development None) by (right; left; reflexivity).
  split; [exact Hdev|].
  apply (development_console_receives_every_level None [("debug", "foo")] Hdev).
  split; cbn; auto 6.
Defined.

(** *** Logging through the handlers *)

(** X8: the message the handler of [POST /] logs reaches the console and
    the combined file in development and no sink at all in any other
    mode. *)
Theorem handler_message_only_in_development :
  forall (NODE_ENV : option string) (req : Req.t),
    (Spec.development NODE_ENV ->
     Winston.emitted (App.logger NODE_ENV)
       (logger_calls (trace (App.asyncWrapper App.root_handler req)))
     = [ Winston.mkEntry "console" "debug" "foo";
         Winston.mkEntry "logs/all.log" "debug" "foo" ])
    /\ (~ Spec.development NODE_ENV ->
        Winston.emitted (App.logger NODE_ENV)
          (logger_calls (trace (App.asyncWrapper App.root_handler req)))
        = []).
Proof.
  intros NODE_ENV req. split; intros H.
  - apply level_debug in H. unfold App.logger. rewrite H. reflexivity.
  - apply level_warn in H. unfold App.logger. rewrite H. reflexivity.
Qed.

(** X9: [skip] answers true exactly when the logger's level is "warn",
    and it is redundant, as the source remarks: built without [skip],
    the request-logging adapter would make the sinks receive exactly
    what they receive with it, in every environment. *)
Theorem skip_is_redundant :
  forall (NODE_ENV : option string) (c : Morgan.Cycle),
    (App.skip NODE_ENV tt = true <-> App.level NODE_ENV = "warn")
    /\ Winston.emitted (App.logger NODE_ENV)
         (logger_calls (trace (morganMiddleware_without_skip c)))
       = Winston.emitted (App.logger NODE_ENV)
           (logger_calls (trace (App.morganMiddleware NODE_ENV c))).
Proof.
  intros NODE_ENV c. split.
  - now rewrite skip_true, level_warn.
  - assert (Hplain : trace (morganMiddleware_without_skip c)
                     = [LoggerLog "http" (Spec.http_line c)]).
    { unfold morganMiddleware_without_skip, Morgan.morgan, App.stream_write, emit.
      now rewrite render_format. }
    rewrite Hplain. cbn [logger_calls].
    destruct (development_or_not NODE_ENV) as [Hdev|Hprod].
    + now rewrite (morgan_development NODE_ENV c Hdev).
    + rewrite (morgan_skipped NODE_ENV c Hprod). cbn [trace fst logger_calls].
      now apply http_dropped_outside_development.
Qed.

(** *** More on the error-formatting middleware *)

(** X10: the [type] of the envelope is never "NodeError" nor
    "SyntaxError", whatever the error. *)
Theorem envelope_type_never_builtin :
  forall (error : Error.t) (req : Req.t),
    exists type : string,
      map (reply_field "type") (replies (App.error_middleware error req))
      = [Some (JStr type)]
      /\ type <> "NodeError" /\ type <> "SyntaxError".
Proof.
  intros error req. rewrite error_middleware_replies.
  exists (Spec.classification error). split; [reflexivity|].
  unfold Spec.classification. cbn [existsb]. rewrite orb_false_r.
  destruct (String.eqb_spec (Error.constructor_name error) "NodeError") as [_|Hn];
    [split; discriminate|].
  destruct (String.eqb_spec (Error.constructor_name error) "SyntaxError") as [_|Hs];
    [split; discriminate|].
  now split.
Qed.


(** X12: the middleware reads the constructor name, the message and the
    [statusCode] attribute of an error and nothing else: two errors that
    agree on these get the same response on the same path, whatever
    their [name] and [status], and whatever else the requests carry. *)
Theorem error_response_ignores_status_and_name :
  forall (e1 e2 : Error.t) (req1 req2 : Req.t),
    Error.constructor_name e1 = Error.constructor_name e2 ->
    Error.message e1 = Error.message e2 ->
    Error.statusCode e1 = Error.statusCode e2 ->
    Req.path req1 = Req.path req2 ->
    replies (App.error_middleware e1 req1) = replies (App.error_middleware e2 req2).
Proof.
  intros e1 e2 req1 req2 Hname Hmsg Hcode Hpath.
  rewrite !error_middleware_replies.
  unfold Spec.classification, Spec.resolved_status.
  now rewrite Hname, Hmsg, Hcode, Hpath.
Qed.

Lemma error_response_ignores_status_and_name_witness :
  Error.statusCode (App.HTTPError 400 "FOO NOT FOUND")
  = Error.statusCode (App.HTTPError 404 "FOO NOT FOUND")
  /\ replies (App.error_middleware (App.HTTPError 400 "FOO NOT FOUND")
                (post_root_request None))
     = replies (App.error_middleware (App.HTTPError 404 "FOO NOT FOUND")
                  (post_root_request (Some "anything123"))).
Proof.
  split; [reflexivity|].
  apply (error_response_ignores_status_and_name
           (App.HTTPError 400 "FOO NOT FOUND") (App.HTTPError 404 "FOO NOT FOUND"));
    reflexivity.
Defined.

(** X13: every [HTTPError], whatever its code and message, is answered
    with status 500 and an envelope typed "HTTPError" that carries the
    message, the request's path and [statusCode] 500; the code given to
    the constructor stays in [status] and does not reach the response. *)
Theorem HTTPError_envelope :
  forall (code : Z) (message : string) (req : Req.t),
    replies (App.error_middleware (App.HTTPError code message) req)
    = [ Res.mkReply 500
          (Res.JsonBody
             (JObj [ ("response", JStr "Error");
                     ("error",
                      JObj [ ("type", JStr "HTTPError");
                             ("path", JStr (Req.path req));
                             ("statusCode", JNum 500);
                             ("message", JStr message) ]) ])) ]
    /\ Error.status (App.HTTPError code message) = Some code.
Proof.
  intros code message req. rewrite error_middleware_replies. now split.
Qed.

(** *** The application as a whole *)

Section WholeApplication.

Variable NODE_ENV : option string.
Variable m : Morgan.Measured.

Lemma morgan_writes_only_its_line :
  forall c : Morgan.Cycle,
    trace (App.morganMiddleware NODE_ENV c) = []
    \/ trace (App.morganMiddleware NODE_ENV c) = [LoggerLog "http" (Spec.http_line c)].
Proof.
  intros c. destruct (development_or_not NODE_ENV) as [Hdev|Hprod].
  - right. now rewrite (morgan_development NODE_ENV c Hdev).
  - left. now rewrite (morgan_skipped NODE_ENV c Hprod).
Qed.

Lemma app_trace_split :
  forall req : Req.t,
    trace (App.app NODE_ENV m req)
    = trace (App.serve req)
      ++ trace (App.morganMiddleware NODE_ENV
                  (Chain.finished req (trace (App.serve req)) m)).
Proof.
  intros req. unfold App.app, bind, trace.
  destruct (App.serve req) as [tr o]. cbn [fst].
  destruct (App.morganMiddleware NODE_ENV (Chain.finished req tr m)) as [tl u].
  cbn. now rewrite app_nil_r.
Qed.



Lemma app_replies :
  forall req : Req.t, replies (App.app NODE_ENV m req) = replies (App.serve req).
Proof.
  intros req. unfold replies. rewrite app_trace_split, run_app.
  destruct (morgan_writes_only_its_line
              (Chain.finished req (trace (App.serve req)) m)) as [-> | ->];
    reflexivity.
Qed.


End WholeApplication.







(** The whole cycle on a request that presents a token: status 200 and
    the fixed body, whatever the token, the environment and the body. *)
Lemma post_root_with_any_token :
  forall (NODE_ENV : option string) (m : Morgan.Measured) (token : string),
    replies (App.app NODE_ENV m (post_root_request (Some token)))
    = [Res.mkReply 200 (Res.TextBody "Express + TypeScript Server")]
    /\ logger_calls (trace (App.serve (post_root_request (Some token))))
       = [("debug", "foo")].
Proof.
  intros NODE_ENV m token. rewrite app_replies. split; reflexivity.
Qed.

(** A request no route matches is answered 404. *)
Lemma unmatched_request_is_answered_404 :
  forall (NODE_ENV : option string) (m : Morgan.Measured)
         (url : string) (bearer : option string),
    replies (App.app NODE_ENV m (Req.mk "GET" "/" url bearer Req.NoPayload))
    = [Res.mkReply 404 Res.NoBody].
Proof.
  intros NODE_ENV m url bearer. rewrite app_replies. reflexivity.
Qed.
